(** * Alfred: the sqlite-vec registration shim

    A shallow embedding of [client/Memory/CSqliteVec/sqlite_vec_register.c],
    the only function body of the two files.  The other file,
    [client/Memory/CLlama/alfred_llama.h], holds declarations only (opaque
    handle types, parameter records and prototypes of the inference
    engine).  Of these, the enumerations carry content of their own, the
    integer each enumerator stands for; they are embedded in module
    [Llama].  The prototypes have no bodies to embed.

    The C function is

<<
    int sqlite_vec_register(sqlite3 *db) {
        char *err = NULL;
        int rc = sqlite3_vec_init(db, &err, NULL);
        if (err) {
            sqlite3_free(err);
        }
        return rc;
    }
>>

    It calls two functions that live outside the repository:
    [sqlite3_vec_init] (the sqlite-vec extension entry point) and
    [sqlite3_free] (the database engine's allocator).  The first is kept
    abstract, as a [Variable] of the section below, so that every theorem
    holds for every behaviour of the entry point.  The second is modelled
    on an explicit store of live buffers. *)

From Stdlib Require Import ZArith.
From stdpp Require Import gmap strings list.

(** ** Values *)

(** A C pointer is its address; [NULL] is address 0. *)
Definition ptr : Type := Z.
Definition NULL : ptr := 0%Z.

(** A C [int].  The shim performs no arithmetic on it: it is copied from the
    callee's return register to its own, so no wrap-around is involved. *)
Definition c_int : Type := Z.

Bind Scope Z_scope with ptr c_int.

(** Modelled from the spec: the status constant of [<sqlite3.h>], which is
    not part of the sources.  Section 6: "integer status codes from
    Register/Decode/Encode (0 = success, non-zero = failure per engine
    convention)". *)
Definition SQLITE_OK : c_int := 0%Z.

(** The C truth value of a pointer, as in [if (err)]. *)
Definition is_set (p : ptr) : bool := negb (p =? NULL)%Z.

(** ** The world the shim runs in *)

(** Everything the shim and its callees can touch:
    - [heap]: the buffers handed out by the engine's allocator and not yet
      released, by address, with the text they hold;
    - [freed]: the arguments of the calls to [sqlite3_free] that released
      something, most recent first;
    - [namespace]: for each connection handle, the names of the SQL
      functions and modules installed on it, most recent first (a list, so
      that a name installed twice shows twice). *)
Record world : Type := World {
  heap : gmap Z string;
  freed : list ptr;
  namespace : gmap Z (list string)
}.

(** ** A state monad for C statements *)

Definition M (A : Type) : Type := world -> A * world.

#[export] Instance M_ret : MRet M := fun A a w => (a, w).

#[export] Instance M_bind : MBind M :=
  fun A B k m w => let (a, w') := m w in k a w'.

(** Modelled from the spec: [sqlite3_free] of [<sqlite3.h>], which is not
    part of the sources.  Section 6 speaks of "an optional human-readable
    message buffer that, when allocated, must be released"; releasing a
    buffer removes it from the live buffers.  As in the engine, releasing
    [NULL] does nothing. *)
Definition sqlite3_free (p : ptr) : M unit :=
  fun w =>
    if is_set p
    then (tt, {| heap := delete p (heap w);
                 freed := p :: freed w;
                 namespace := namespace w |})
    else (tt, w).

(** The world after [sqlite3_free p]. *)
Definition release (p : ptr) (w : world) : world := snd (sqlite3_free p w).

(** ** The shim *)

Section Register.

(** [sqlite3_vec_init db pzErrMsg pApi], the extension entry point declared
    in [sqlite-vec.h].  The out-parameter is passed by value and returned:
    the second argument is the content of [*pzErrMsg] on entry, and the
    result is the pair of the status code and the content of [*pzErrMsg] on
    exit.  Nothing is assumed of it. *)
Variable sqlite3_vec_init : ptr -> ptr -> ptr -> M (c_int * ptr).

Definition sqlite_vec_register (db : ptr) : M c_int :=
  let err := NULL in
  '(rc, err) ← sqlite3_vec_init db err NULL;
  _ ← (if is_set err then sqlite3_free err else mret tt);
  mret rc.

End Register.

(** ** Stand-ins for the entry point

    Concrete entry points on which the shim can be run.  They are used only
    to instantiate the general theorems below. *)

(** An entry point that returns [rc] and reports [msg] in a fresh buffer at
    address [p]. *)
Definition init_reporting (rc : c_int) (p : ptr) (msg : string)
    (db pzErrMsg pApi : ptr) : M (c_int * ptr) :=
  fun w => ((rc, p), {| heap := <[p := msg]> (heap w);
                        freed := freed w;
                        namespace := namespace w |}).

(** An entry point that returns [rc], leaves [*pzErrMsg] as it found it and
    installs [names] on the connection. *)
Definition init_installing (rc : c_int) (names : list string)
    (db pzErrMsg pApi : ptr) : M (c_int * ptr) :=
  fun w => ((rc, pzErrMsg),
            {| heap := heap w;
               freed := freed w;
               namespace := <[db := names ++ default [] (namespace w !! db)]>
                              (namespace w) |}).

(** A world with one connection at address 7 and one unrelated live buffer. *)
Definition w0 : world :=
  {| heap := {[ 512%Z := "unrelated" ]};
     freed := [];
     namespace := {[ 7%Z := [] ]} |}.

(** Two worlds that differ at most in the text held at address [p]. *)
Definition same_but_text_at (p : ptr) (w w' : world) : Prop :=
  freed w = freed w' ∧ namespace w = namespace w' ∧
  ∀ q : Z, q ≠ p → heap w !! q = heap w' !! q.


(** An entry point that returns [rc], leaves [*pzErrMsg] as it found it and
    sets what the connection holds to [names], whatever it held before. *)
Definition init_replacing (rc : c_int) (names : list string)
    (db pzErrMsg pApi : ptr) : M (c_int * ptr) :=
  fun w => ((rc, pzErrMsg),
            {| heap := heap w;
               freed := freed w;
               namespace := <[db := names]> (namespace w) |}).

(** An entry point is benign on re-entry for [db] when, run in any world
    whose connections hold what an earlier run left, it succeeds and leaves
    the connections as they are. *)
Definition reinit_benign (init : ptr -> ptr -> ptr -> M (c_int * ptr))
    (db : ptr) : Prop :=
  ∀ w w' : world,
    namespace w' = namespace (snd (init db NULL NULL w)) →
    fst (fst (init db NULL NULL w')) = SQLITE_OK ∧
    namespace (snd (init db NULL NULL w')) = namespace w'.

(** An entry point leaves the out-parameter alone when [*pzErrMsg] holds on
    exit what it held on entry. *)
Definition leaves_message_unset (init : ptr -> ptr -> ptr -> M (c_int * ptr))
    (db : ptr) : Prop :=
  ∀ (e pApi : ptr) (w : world), snd (fst (init db e pApi w)) = e.

(** ** The enumerations of [alfred_llama.h]

    Each C enumeration is an inductive type with one constructor per
    enumerator, and a function giving the integer the header assigns to
    it. *)

Module Llama.

(** A C enumeration: its enumerators and their integer values. *)
Class CEnum (A : Type) : Type := enum_value : A -> Z.

Inductive llama_split_mode : Type :=
  | LLAMA_SPLIT_MODE_NONE
  | LLAMA_SPLIT_MODE_LAYER
  | LLAMA_SPLIT_MODE_ROW.

#[export] Instance llama_split_mode_enum : CEnum llama_split_mode :=
  fun m => match m with
           | LLAMA_SPLIT_MODE_NONE => 0
           | LLAMA_SPLIT_MODE_LAYER => 1
           | LLAMA_SPLIT_MODE_ROW => 2
           end%Z.

Inductive llama_rope_scaling_type : Type :=
  | LLAMA_ROPE_SCALING_TYPE_UNSPECIFIED
  | LLAMA_ROPE_SCALING_TYPE_NONE
  | LLAMA_ROPE_SCALING_TYPE_LINEAR
  | LLAMA_ROPE_SCALING_TYPE_YARN
  | LLAMA_ROPE_SCALING_TYPE_LONGROPE.

#[export] Instance llama_rope_scaling_type_enum : CEnum llama_rope_scaling_type :=
  fun t => match t with
           | LLAMA_ROPE_SCALING_TYPE_UNSPECIFIED => -1
           | LLAMA_ROPE_SCALING_TYPE_NONE => 0
           | LLAMA_ROPE_SCALING_TYPE_LINEAR => 1
           | LLAMA_ROPE_SCALING_TYPE_YARN => 2
           | LLAMA_ROPE_SCALING_TYPE_LONGROPE => 3
           end%Z.

Inductive llama_pooling_type : Type :=
  | LLAMA_POOLING_TYPE_UNSPECIFIED
  | LLAMA_POOLING_TYPE_NONE
  | LLAMA_POOLING_TYPE_MEAN
  | LLAMA_POOLING_TYPE_CLS
  | LLAMA_POOLING_TYPE_LAST
  | LLAMA_POOLING_TYPE_RANK.

#[export] Instance llama_pooling_type_enum : CEnum llama_pooling_type :=
  fun t => match t with
           | LLAMA_POOLING_TYPE_UNSPECIFIED => -1
           | LLAMA_POOLING_TYPE_NONE => 0
           | LLAMA_POOLING_TYPE_MEAN => 1
           | LLAMA_POOLING_TYPE_CLS => 2
           | LLAMA_POOLING_TYPE_LAST => 3
           | LLAMA_POOLING_TYPE_RANK => 4
           end%Z.

Inductive llama_attention_type : Type :=
  | LLAMA_ATTENTION_TYPE_UNSPECIFIED
  | LLAMA_ATTENTION_TYPE_CAUSAL
  | LLAMA_ATTENTION_TYPE_NON_CAUSAL.

#[export] Instance llama_attention_type_enum : CEnum llama_attention_type :=
  fun t => match t with
           | LLAMA_ATTENTION_TYPE_UNSPECIFIED => -1
           | LLAMA_ATTENTION_TYPE_CAUSAL => 0
           | LLAMA_ATTENTION_TYPE_NON_CAUSAL => 1
           end%Z.

Inductive llama_flash_attn_type : Type :=
  | LLAMA_FLASH_ATTN_TYPE_AUTO
  | LLAMA_FLASH_ATTN_TYPE_DISABLED
  | LLAMA_FLASH_ATTN_TYPE_ENABLED.

#[export] Instance llama_flash_attn_type_enum : CEnum llama_flash_attn_type :=
  fun t => match t with
           | LLAMA_FLASH_ATTN_TYPE_AUTO => -1
           | LLAMA_FLASH_ATTN_TYPE_DISABLED => 0
           | LLAMA_FLASH_ATTN_TYPE_ENABLED => 1
           end%Z.

(** The integers that name an enumerator of [A]. *)
Definition names_enumerator (A : Type) `{CEnum A} (z : Z) : Prop :=
  ∃ a : A, enum_value a = z.

End Llama.

(** ** Facts about the model *)

Lemma is_set_true (p : ptr) : is_set p = true ↔ p ≠ NULL.
Proof.
  unfold is_set. rewrite negb_true_iff, Z.eqb_neq. reflexivity.
Qed.

Lemma is_set_false (p : ptr) : is_set p = false ↔ p = NULL.
Proof.
  unfold is_set. rewrite negb_false_iff, Z.eqb_eq. reflexivity.
Qed.

Lemma release_set (p : ptr) (w : world) :
  p ≠ NULL →
  release p w = {| heap := delete p (heap w);
                   freed := p :: freed w;
                   namespace := namespace w |}.
Proof.
  intros Hp. apply is_set_true in Hp.
  unfold release, sqlite3_free. rewrite Hp. reflexivity.
Qed.

Lemma release_NULL (w : world) : release NULL w = w.
Proof. reflexivity. Qed.

Lemma world_eq (w w' : world) :
  heap w = heap w' → freed w = freed w' → namespace w = namespace w' → w = w'.
Proof. destruct w, w'; simpl; intros -> -> ->; reflexivity. Qed.

Lemma namespace_release (p : ptr) (w : world) :
  namespace (release p w) = namespace w.
Proof.
  unfold release, sqlite3_free. destruct (is_set p); reflexivity.
Qed.

Lemma heap_release_other (p q : ptr) (w : world) :
  q ≠ p → heap (release p w) !! q = heap w !! q.
Proof.
  intros Hq. unfold release, sqlite3_free.
  destruct (is_set p); simpl; [|reflexivity].
  apply lookup_delete_ne. congruence.
Qed.

Lemma heap_release_same (p : ptr) (w : world) :
  p ≠ NULL → heap (release p w) !! p = None.
Proof.
  intros Hp. rewrite release_set by assumption. simpl.
  apply lookup_delete_eq.
Qed.

Section RegisterFacts.

Variable init : ptr -> ptr -> ptr -> M (c_int * ptr).

(** The shim, one call at a time: the status is the entry point's, and the
    world is the entry point's with the reported buffer released. *)
Lemma sqlite_vec_register_eq (db : ptr) (w : world) :
  sqlite_vec_register init db w =
  (fst (fst (init db NULL NULL w)),
   release (snd (fst (init db NULL NULL w))) (snd (init db NULL NULL w))).
Proof.
  unfold sqlite_vec_register, mbind, M_bind, mret, M_ret.
  destruct (init db NULL NULL w) as [[rc err] w1]; simpl.
  unfold release, sqlite3_free.
  destruct (is_set err); reflexivity.
Qed.

Lemma sqlite_vec_register_status (db : ptr) (w : world) :
  fst (sqlite_vec_register init db w) = fst (fst (init db NULL NULL w)).
Proof. rewrite sqlite_vec_register_eq. reflexivity. Qed.

Lemma sqlite_vec_register_world (db : ptr) (w : world) :
  snd (sqlite_vec_register init db w) =
  release (snd (fst (init db NULL NULL w))) (snd (init db NULL NULL w)).
Proof. rewrite sqlite_vec_register_eq. reflexivity. Qed.

(** The shim installs nothing of its own: what a connection holds after
    registration is what the entry point left there. *)
Lemma sqlite_vec_register_namespace (db : ptr) (w : world) :
  namespace (snd (sqlite_vec_register init db w)) =
  namespace (snd (init db NULL NULL w)).
Proof.
  rewrite sqlite_vec_register_world. apply namespace_release.
Qed.

(** Registering twice: the second call runs the entry point once more, in
    the world the first call left, and forwards its status. *)
Lemma sqlite_vec_register_twice (db : ptr) (w : world) :
  let w1 := snd (sqlite_vec_register init db w) in
  fst (sqlite_vec_register init db w1) = fst (fst (init db NULL NULL w1)) ∧
  namespace (snd (sqlite_vec_register init db w1)) =
  namespace (snd (init db NULL NULL w1)).
Proof.
  intros w1. split.
  - apply sqlite_vec_register_status.
  - apply sqlite_vec_register_namespace.
Qed.

End RegisterFacts.

(** ** The shim on concrete inputs *)

(** A failing entry point that reports a message: the status comes back and
    the buffer is gone; the unrelated buffer stays. *)
Example register_failure_with_message :
  sqlite_vec_register (init_reporting 1 4096 "out of memory") 7 w0
  = (1%Z, {| heap := {[ 512%Z := "unrelated" ]};
             freed := [4096%Z];
             namespace := {[ 7%Z := [] ]} |}).
Proof. vm_compute. reflexivity. Qed.

(** A succeeding entry point that reports nothing: [sqlite3_free] is not
    called and the installed names are the entry point's. *)
Example register_success_quiet :
  sqlite_vec_register (init_installing SQLITE_OK ["vec0"; "vec_distance_l2"]) 7 w0
  = (SQLITE_OK, {| heap := {[ 512%Z := "unrelated" ]};
                   freed := [];
                   namespace := {[ 7%Z := ["vec0"; "vec_distance_l2"] ]} |}).
Proof. vm_compute. reflexivity. Qed.

(** A succeeding entry point that nevertheless reports a message: the
    buffer is released all the same. *)
Example register_success_with_message :
  sqlite_vec_register (init_reporting SQLITE_OK 4096 "already loaded") 7 w0
  = (SQLITE_OK, {| heap := {[ 512%Z := "unrelated" ]};
                   freed := [4096%Z];
                   namespace := {[ 7%Z := [] ]} |}).
Proof. vm_compute. reflexivity. Qed.

(** ** The registrar's contract *)

(** C1.  Whatever the entry point returns and whatever it leaves in the
    out-parameter, a buffer it reported is released before the shim returns:
    it is no longer live, [sqlite3_free] ran for it once, and no other buffer
    was touched.  When no buffer was reported the shim leaves the world as
    the entry point left it.  The shim has one exit, reached on success and
    on failure alike, and its result is the status alone: no pointer reaches
    the caller. *)
Theorem sqlite_vec_register_frees_error_buffer
    (init : ptr → ptr → ptr → M (c_int * ptr))
    (db : ptr) (w : world) (rc : c_int) (err : ptr) (w1 : world) :
  init db NULL NULL w = ((rc, err), w1) →
  let w2 := snd (sqlite_vec_register init db w) in
  (err ≠ NULL →
     heap w2 !! err = None ∧
     freed w2 = err :: freed w1 ∧
     ∀ q : Z, q ≠ err → heap w2 !! q = heap w1 !! q) ∧
  (err = NULL → w2 = w1).
Proof.
  intros Hinit w2. subst w2.
  rewrite sqlite_vec_register_world, Hinit. simpl.
  split.
  - intros Hset. split; [|split].
    + apply heap_release_same, Hset.
    + rewrite release_set by assumption. reflexivity.
    + intros q Hq. apply heap_release_other, Hq.
  - intros ->. apply release_NULL.
Qed.

Lemma sqlite_vec_register_frees_error_buffer_witness :
  init_reporting 1 4096 "out of memory" 7 NULL NULL w0
  = ((1%Z, 4096%Z),
     {| heap := <[4096%Z := "out of memory"]> (heap w0);
        freed := []; namespace := namespace w0 |}) ∧
  heap (snd (sqlite_vec_register (init_reporting 1 4096 "out of memory") 7 w0))
    !! 4096%Z = None ∧
  freed (snd (sqlite_vec_register (init_reporting 1 4096 "out of memory") 7 w0))
    = [4096%Z].
Proof.
  split; [reflexivity|].
  destruct (sqlite_vec_register_frees_error_buffer
              (init_reporting 1 4096 "out of memory") 7 w0 1%Z 4096%Z _
              eq_refl) as [Hset _].
  destruct Hset as (Hgone & Hfreed & _); [discriminate|].
  split; assumption.
Defined.

(** C2.  The shim returns a status code under the engine's convention: it
    returns [SQLITE_OK] exactly when the entry point did, so a non-zero
    status of the entry point is never turned into success; it reaches the
    caller as a non-zero status. *)
Theorem sqlite_vec_register_surfaces_failure
    (init : ptr → ptr → ptr → M (c_int * ptr))
    (db : ptr) (w : world) (rc : c_int) (err : ptr) (w1 : world) :
  init db NULL NULL w = ((rc, err), w1) →
  (rc = SQLITE_OK → fst (sqlite_vec_register init db w) = SQLITE_OK) ∧
  (rc ≠ SQLITE_OK → fst (sqlite_vec_register init db w) ≠ SQLITE_OK).
Proof.
  intros Hinit.
  rewrite sqlite_vec_register_status, Hinit. simpl.
  split; intros H; exact H.
Qed.

Lemma sqlite_vec_register_surfaces_failure_witness :
  init_installing 7 [] 7 NULL NULL w0
  = ((7%Z, NULL),
     {| heap := heap w0; freed := [];
        namespace := <[7%Z := []]> (namespace w0) |}) ∧
  fst (sqlite_vec_register (init_installing 7 []) 7 w0) ≠ SQLITE_OK.
Proof.
  split; [reflexivity|].
  apply (sqlite_vec_register_surfaces_failure
           (init_installing 7 []) 7 w0 7%Z NULL _ eq_refl).
  discriminate.
Defined.

(** C9.  The release does not look at the status.  For every status [rc],
    [SQLITE_OK] included, a buffer reported by the entry point is released:
    the world after the shim is the entry point's world with that buffer
    released, the buffer is no longer live, and when the buffer was the one
    thing the entry point allocated the live buffers are back to what they
    were before the call. *)
Theorem sqlite_vec_register_frees_on_any_status
    (init : ptr → ptr → ptr → M (c_int * ptr))
    (db : ptr) (w : world) (rc : c_int) (err : ptr) (w1 : world) :
  init db NULL NULL w = ((rc, err), w1) →
  err ≠ NULL →
  snd (sqlite_vec_register init db w) = release err w1 ∧
  heap (snd (sqlite_vec_register init db w)) !! err = None ∧
  ∀ msg : string,
    heap w !! err = None →
    heap w1 = <[err := msg]> (heap w) →
    heap (snd (sqlite_vec_register init db w)) = heap w.
Proof.
  intros Hinit Hset.
  rewrite sqlite_vec_register_world, Hinit. simpl.
  split; [reflexivity|]. split.
  - apply heap_release_same, Hset.
  - intros msg Hfresh Hw1.
    rewrite release_set by assumption. simpl.
    rewrite Hw1. apply delete_insert_id, Hfresh.
Qed.

Lemma sqlite_vec_register_frees_on_any_status_witness :
  init_reporting SQLITE_OK 4096 "already loaded" 7 NULL NULL w0
  = ((SQLITE_OK, 4096%Z),
     {| heap := <[4096%Z := "already loaded"]> (heap w0);
        freed := []; namespace := namespace w0 |}) ∧
  heap (snd (sqlite_vec_register
               (init_reporting SQLITE_OK 4096 "already loaded") 7 w0))
  = heap w0.
Proof.
  split; [reflexivity|].
  destruct (sqlite_vec_register_frees_on_any_status
              (init_reporting SQLITE_OK 4096 "already loaded") 7 w0
              SQLITE_OK 4096%Z _ eq_refl) as (_ & _ & Hleak).
  - discriminate.
  - apply (Hleak "already loaded"); reflexivity.
Defined.

(** C10.  The value the shim returns is the entry point's status code,
    unchanged, and the text of the message is dropped: two entry points
    that return the same status and the same buffer address, and leave
    worlds that differ only in the text held there, give the caller the
    same status and the same world. *)
Theorem sqlite_vec_register_returns_init_status
    (init : ptr → ptr → ptr → M (c_int * ptr))
    (db : ptr) (w : world) (rc : c_int) (err : ptr) (w1 : world) :
  init db NULL NULL w = ((rc, err), w1) →
  fst (sqlite_vec_register init db w) = rc ∧
  ∀ (init' : ptr → ptr → ptr → M (c_int * ptr)) (w1' : world),
    err ≠ NULL →
    init' db NULL NULL w = ((rc, err), w1') →
    same_but_text_at err w1 w1' →
    sqlite_vec_register init' db w = sqlite_vec_register init db w.
Proof.
  intros Hinit. split.
  - rewrite sqlite_vec_register_status, Hinit. reflexivity.
  - intros init' w1' Hset Hinit' (Hfreed & Hns & Hheap).
    rewrite !sqlite_vec_register_eq, Hinit, Hinit'. simpl.
    f_equal. rewrite !release_set by assumption.
    apply world_eq; simpl.
    + apply map_eq. intros q.
      destruct (decide (q = err)) as [->|Hq].
      * rewrite !lookup_delete_eq. reflexivity.
      * rewrite !lookup_delete_ne by congruence.
        symmetry. apply Hheap, Hq.
    + rewrite Hfreed. reflexivity.
    + symmetry. exact Hns.
Qed.

Lemma sqlite_vec_register_returns_init_status_witness :
  init_reporting 1 4096 "out of memory" 7 NULL NULL w0
  = ((1%Z, 4096%Z),
     {| heap := <[4096%Z := "out of memory"]> (heap w0);
        freed := []; namespace := namespace w0 |}) ∧
  fst (sqlite_vec_register (init_reporting 1 4096 "out of memory") 7 w0) = 1%Z ∧
  sqlite_vec_register (init_reporting 1 4096 "vec0: name taken") 7 w0
  = sqlite_vec_register (init_reporting 1 4096 "out of memory") 7 w0.
Proof.
  split; [reflexivity|].
  destruct (sqlite_vec_register_returns_init_status
              (init_reporting 1 4096 "out of memory") 7 w0 1%Z 4096%Z _
              eq_refl) as [Hrc Hsame].
  split; [exact Hrc|].
  eapply (Hsame (init_reporting 1 4096 "vec0: name taken"));
    [discriminate|reflexivity|].
  split; [reflexivity|]. split; [reflexivity|].
  intros q Hq. simpl. rewrite !lookup_insert_ne by congruence. reflexivity.
Defined.

(** ** What else the shim does and does not do *)



(** X2.  Compared with the world the entry point left, the shim allocates
    nothing and rewrites no buffer (every buffer live afterwards was live,
    with the same text), leaves every connection's namespace alone, and
    calls [sqlite3_free] at most once, on the reported pointer. *)
Theorem sqlite_vec_register_only_releases
    (init : ptr → ptr → ptr → M (c_int * ptr)) (db : ptr) (w : world) :
  let err := snd (fst (init db NULL NULL w)) in
  let w1 := snd (init db NULL NULL w) in
  let w2 := snd (sqlite_vec_register init db w) in
  heap w2 ⊆ heap w1 ∧
  namespace w2 = namespace w1 ∧
  (freed w2 = freed w1 ∨ freed w2 = err :: freed w1).
Proof.
  intros err w1 w2. subst w2.
  rewrite sqlite_vec_register_world. fold err w1.
  destruct (decide (err = NULL)) as [->|Hset].
  - rewrite release_NULL. split; [reflexivity|]. split; [reflexivity|].
    left. reflexivity.
  - rewrite release_set by assumption. simpl.
    split; [apply delete_subseteq|]. split; [reflexivity|].
    right. reflexivity.
Qed.

(** X3.  The local [err] starts as [NULL], so an entry point that never
    writes the out-parameter causes no call to [sqlite3_free]: the shim
    leaves the world exactly as the entry point left it. *)
Theorem sqlite_vec_register_no_release_when_unset
    (init : ptr → ptr → ptr → M (c_int * ptr)) (db : ptr) (w : world) :
  leaves_message_unset init db →
  snd (sqlite_vec_register init db w) = snd (init db NULL NULL w).
Proof.
  intros Hunset.
  rewrite sqlite_vec_register_world, (Hunset NULL NULL w).
  apply release_NULL.
Qed.

Lemma sqlite_vec_register_no_release_when_unset_witness :
  leaves_message_unset (init_installing 7 ["vec0"]) 7 ∧
  snd (sqlite_vec_register (init_installing 7 ["vec0"]) 7 w0)
  = snd (init_installing 7 ["vec0"] 7 NULL NULL w0).
Proof.
  assert (Hunset : leaves_message_unset (init_installing 7 ["vec0"]) 7).
  { intros e pApi w. reflexivity. }
  split; [exact Hunset|].
  apply (sqlite_vec_register_no_release_when_unset
           (init_installing 7 ["vec0"]) 7 w0 Hunset).
Defined.

(** X4.  The shim keeps no state between calls, so it is as repeatable as
    the entry point: when the entry point is benign on re-entry, a second
    registration of the same connection returns [SQLITE_OK] and leaves the
    connections holding what the first registration left. *)
Theorem sqlite_vec_register_again_benign
    (init : ptr → ptr → ptr → M (c_int * ptr)) (db : ptr) (w : world) :
  reinit_benign init db →
  let w1 := snd (sqlite_vec_register init db w) in
  fst (sqlite_vec_register init db w1) = SQLITE_OK ∧
  namespace (snd (sqlite_vec_register init db w1)) = namespace w1.
Proof.
  intros Hbenign w1.
  destruct (Hbenign w w1) as [Hok Hns].
  { subst w1. apply sqlite_vec_register_namespace. }
  rewrite sqlite_vec_register_status, sqlite_vec_register_namespace.
  split; assumption.
Qed.

Lemma sqlite_vec_register_again_benign_witness :
  reinit_benign (init_replacing SQLITE_OK ["vec0"; "vec_distance_l2"]) 7 ∧
  fst (sqlite_vec_register (init_replacing SQLITE_OK ["vec0"; "vec_distance_l2"]) 7
         (snd (sqlite_vec_register
                 (init_replacing SQLITE_OK ["vec0"; "vec_distance_l2"]) 7 w0)))
  = SQLITE_OK.
Proof.
  assert (Hbenign :
    reinit_benign (init_replacing SQLITE_OK ["vec0"; "vec_distance_l2"]) 7).
  { intros w w' Hw. split; [reflexivity|].
    simpl in *. rewrite Hw. apply insert_insert_eq. }
  split; [exact Hbenign|].
  apply (sqlite_vec_register_again_benign
           (init_replacing SQLITE_OK ["vec0"; "vec_distance_l2"]) 7 w0 Hbenign).
Defined.

(** The condition of X4 is needed: with an entry point that adds its names
    on every run, the shim adds them twice. *)
Example register_twice_appending :
  namespace (snd (sqlite_vec_register (init_installing SQLITE_OK ["vec0"]) 7
               (snd (sqlite_vec_register (init_installing SQLITE_OK ["vec0"]) 7 w0))))
  !! 7%Z = Some ["vec0"; "vec0"].
Proof. vm_compute. reflexivity. Qed.

(** ** The enumerations *)

Module LlamaFacts.
Import Llama.

(** X5.  Within each enumeration of the header no two enumerators share a
    value: an integer read back from a parameter record names at most one
    enumerator. *)
Theorem enum_values_distinct :
  Inj (=) (=) (enum_value (A := llama_split_mode)) ∧
  Inj (=) (=) (enum_value (A := llama_rope_scaling_type)) ∧
  Inj (=) (=) (enum_value (A := llama_pooling_type)) ∧
  Inj (=) (=) (enum_value (A := llama_attention_type)) ∧
  Inj (=) (=) (enum_value (A := llama_flash_attn_type)).
Proof.
  repeat split; intros a b Hab; destruct a, b;
    first [reflexivity | discriminate Hab].
Qed.

(** X6.  The values of each enumeration fill an interval with no gap:
    0..2 for the split mode, -1..3 for the rope scaling type, -1..4 for the
    pooling type, -1..1 for the attention type and for the flash-attention
    type.  A range test therefore decides whether an integer names an
    enumerator. *)
Theorem enum_values_contiguous (z : Z) :
  (names_enumerator llama_split_mode z ↔ (0 ≤ z ≤ 2)%Z) ∧
  (names_enumerator llama_rope_scaling_type z ↔ (-1 ≤ z ≤ 3)%Z) ∧
  (names_enumerator llama_pooling_type z ↔ (-1 ≤ z ≤ 4)%Z) ∧
  (names_enumerator llama_attention_type z ↔ (-1 ≤ z ≤ 1)%Z) ∧
  (names_enumerator llama_flash_attn_type z ↔ (-1 ≤ z ≤ 1)%Z).
Proof.
  unfold names_enumerator.
  split; [|split; [|split; [|split]]];
    (split; [intros [a <-]; destruct a; split; vm_compute; discriminate|]).
  - intros Hz.
    assert (z = 0 ∨ z = 1 ∨ z = 2)%Z as [-> | [-> | ->]] by lia;
      [exists LLAMA_SPLIT_MODE_NONE | exists LLAMA_SPLIT_MODE_LAYER
      | exists LLAMA_SPLIT_MODE_ROW]; reflexivity.
  - intros Hz.
    assert (z = -1 ∨ z = 0 ∨ z = 1 ∨ z = 2 ∨ z = 3)%Z
      as [-> | [-> | [-> | [-> | ->]]]] by lia;
      [exists LLAMA_ROPE_SCALING_TYPE_UNSPECIFIED
      | exists LLAMA_ROPE_SCALING_TYPE_NONE
      | exists LLAMA_ROPE_SCALING_TYPE_LINEAR
      | exists LLAMA_ROPE_SCALING_TYPE_YARN
      | exists LLAMA_ROPE_SCALING_TYPE_LONGROPE]; reflexivity.
  - intros Hz.
    assert (z = -1 ∨ z = 0 ∨ z = 1 ∨ z = 2 ∨ z = 3 ∨ z = 4)%Z
      as [-> | [-> | [-> | [-> | [-> | ->]]]]] by lia;
      [exists LLAMA_POOLING_TYPE_UNSPECIFIED
      | exists LLAMA_POOLING_TYPE_NONE
      | exists LLAMA_POOLING_TYPE_MEAN
      | exists LLAMA_POOLING_TYPE_CLS
      | exists LLAMA_POOLING_TYPE_LAST
      | exists LLAMA_POOLING_TYPE_RANK]; reflexivity.
  - intros Hz.
    assert (z = -1 ∨ z = 0 ∨ z = 1)%Z as [-> | [-> | ->]] by lia;
      [exists LLAMA_ATTENTION_TYPE_UNSPECIFIED
      | exists LLAMA_ATTENTION_TYPE_CAUSAL
      | exists LLAMA_ATTENTION_TYPE_NON_CAUSAL]; reflexivity.
  - intros Hz.
    assert (z = -1 ∨ z = 0 ∨ z = 1)%Z as [-> | [-> | ->]] by lia;
      [exists LLAMA_FLASH_ATTN_TYPE_AUTO
      | exists LLAMA_FLASH_ATTN_TYPE_DISABLED
      | exists LLAMA_FLASH_ATTN_TYPE_ENABLED]; reflexivity.
Qed.

End LlamaFacts.
